(** * AndBug packet processor: a shallow embedding of [andbug/process.py]

    The module drives a JDWP session over a transport that is handed to it as
    two callables, [read] and [write].  Python 2 [str] values are byte
    strings and are modelled as lists of bytes; Python integers are
    unbounded and are modelled as [Z].  Every method of [Process] becomes a
    computation in a small state-and-exception monad whose state holds the
    attributes of the object, the state of the transport and a log of the
    calls made on the transport. *)

From Stdlib Require Import ZArith List Bool Lia FinFun.
From Stdlib.Strings Require Import String Ascii Byte.
Import ListNotations.

Local Open Scope Z_scope.

Definition bytes := list byte.

Definition bytes_of_string (s : string) : bytes := list_byte_of_string s.

Definition bytes_eqb (a b : bytes) : bool :=
  if list_eq_dec Byte.byte_eq_dec a b then true else false.

Definition len (data : bytes) : Z := Z.of_nat (List.length data).

(** ** Exceptions *)

Inductive exn : Type :=
| HandshakeError (msg : string)
| ProtocolError (msg : string)
| NameError (name : string)
| AttributeError (name : string)
| IndexError
| RuntimeError (msg : string)
| CodecError (msg : string).

Inductive result (A : Type) : Type :=
| Ok (a : A)
| Raise (e : exn).
Arguments Ok {A} a.
Arguments Raise {A} e.

(** ** The wire codec, [andbug.jdwp.JdwpBuffer] *)

Module JdwpBuffer.

(** Big-endian integers. *)

Definition byte_of_Z (v : Z) : byte :=
  match Byte.of_N (Z.to_N (v mod 256)) with
  | Some b => b
  | None => x00
  end.

Definition Z_of_byte (b : byte) : Z := Z.of_N (Byte.to_N b).

Fixpoint be_encode (w : nat) (v : Z) : bytes :=
  match w with
  | O => []
  | S w' => byte_of_Z (Z.shiftr v (8 * Z.of_nat w')) :: be_encode w' v
  end.

Fixpoint be_decode_from (acc : Z) (data : bytes) : Z :=
  match data with
  | [] => acc
  | b :: rest => be_decode_from (acc * 256 + Z_of_byte b) rest
  end.

Definition be_decode (data : bytes) : Z := be_decode_from 0 data.

Definition to_signed (w : nat) (u : Z) : Z :=
  if u <? 2 ^ (8 * Z.of_nat w - 1) then u else u - 2 ^ (8 * Z.of_nat w).

(** Modelled from the spec: the codec class [JdwpBuffer] is imported from
    [andbug.jdwp], which is not part of the sources at hand.  A field of
    a format string is a fixed-width big-endian integer; the header
    format ['4412'] is laid out as [int32 length | int32 id | uint8 flags
    | uint16 code] and ['i'] is a 32-bit integer.  Other format
    characters do not occur in [process.py] and are rejected. *)
Record field := { width : nat; signed : bool }.

Definition field_of_char (c : ascii) : option field :=
  if Ascii.eqb c "1" then Some {| width := 1; signed := false |}
  else if Ascii.eqb c "2" then Some {| width := 2; signed := false |}
  else if Ascii.eqb c "4" then Some {| width := 4; signed := true |}
  else if Ascii.eqb c "i" then Some {| width := 4; signed := true |}
  else None.

Definition encode (f : field) (v : Z) : bytes := be_encode (width f) v.

Definition decode (f : field) (data : bytes) : Z :=
  if signed f then to_signed (width f) (be_decode data) else be_decode data.

Definition in_range (f : field) (v : Z) : Prop :=
  if signed f
  then - 2 ^ (8 * Z.of_nat (width f) - 1) <= v < 2 ^ (8 * Z.of_nat (width f) - 1)
  else 0 <= v < 2 ^ (8 * Z.of_nat (width f)).

Fixpoint pack_fields (fmt : list ascii) (vals : list Z) : option bytes :=
  match fmt, vals with
  | [], [] => Some []
  | c :: fmt', v :: vals' =>
      match field_of_char c, pack_fields fmt' vals' with
      | Some f, Some rest => Some (encode f v ++ rest)
      | _, _ => None
      end
  | _, _ => None
  end.

Fixpoint unpack_fields (fmt : list ascii) (data : bytes) : option (list Z) :=
  match fmt with
  | [] => Some []
  | c :: fmt' =>
      match field_of_char c with
      | Some f =>
          if (List.length data <? width f)%nat then None
          else match unpack_fields fmt' (skipn (width f) data) with
               | Some vs => Some (decode f (firstn (width f) data) :: vs)
               | None => None
               end
      | None => None
      end
  end.

(** Modelled from the spec: the state of a [JdwpBuffer] object, which
    [andbug.jdwp] would define.  It holds the five negotiated identifier
    widths ([None] until [config] is called) and the bytes packed since
    the last [preparePack]. *)
Record t := { sizes : option (list Z); buf : bytes }.

Definition new : t := {| sizes := None; buf := [] |}.

Definition config (b : t) (widths : list Z) : t :=
  {| sizes := Some widths; buf := buf b |}.

Definition preparePack (b : t) : t := {| sizes := sizes b; buf := [] |}.

Definition data (b : t) : bytes := buf b.

(** [pack] starts from an empty buffer and returns its contents. *)
Definition pack (b : t) (fmt : string) (vals : list Z) : t * result bytes :=
  match pack_fields (list_ascii_of_string fmt) vals with
  | Some out => ({| sizes := sizes b; buf := out |}, Ok out)
  | None => (preparePack b, Raise (CodecError "pack"))
  end.

Definition unpack (b : t) (fmt : string) (input : bytes) : result (list Z) :=
  match unpack_fields (list_ascii_of_string fmt) input with
  | Some vs => Ok vs
  | None => Raise (CodecError "unpack")
  end.

End JdwpBuffer.

(** ** Module-level names of [process.py] *)

Definition HANDSHAKE_MSG : bytes := bytes_of_string "JDWP-Handshake".

Definition HEADER_FORMAT : string := "4412".

Definition IDSZ_REQ : bytes :=
  [ x00; x00; x00; x0b    (* Length *)
  ; x00; x00; x00; x01    (* Identifier *)
  ; x00                   (* Flags *)
  ; x01; x07 ].           (* Command 1:7 *)

(** The names bound at module level once [process.py] has been executed:
    its two imports, its classes and its constants. *)
Definition module_globals : list string :=
  [ "Thread"; "JdwpBuffer"; "HandshakeError"; "ProtocolError"
  ; "HANDSHAKE_MSG"; "HEADER_FORMAT"; "IDSZ_REQ"; "Process"; "Element"
  ; "Content"; "Response"; "Failure"; "Success"; "Request"; "Event" ]%string.

(** The exception classes among Python's builtins that a constructor could
    delegate to; none of the builtins is called [Error]. *)
Definition builtin_names : list string :=
  [ "BaseException"; "Exception"; "StandardError"; "object" ]%string.

Definition name_bound (name : string) : bool :=
  existsb (String.eqb name) module_globals
  || existsb (String.eqb name) builtin_names.

(** [HandshakeError()]: the constructor evaluates [Error.__init__(self,
    ...)], which first looks the global name [Error] up. *)
Definition HandshakeError_new : result exn :=
  if name_bound "Error"
  then Ok (HandshakeError "handshake error, received message did not match")
  else Raise (NameError "Error").

(** ** Content classes *)

(** A content object as [writeContent] sees it: the class attributes
    [CODE] and [FLAGS], either of which a class may leave undefined, and
    the [packTo] method. *)
Record Content := {
  CODE : option Z;
  FLAGS : option Z;
  packTo : JdwpBuffer.t -> JdwpBuffer.t
}.

(** [Element.packTo] is [pass]. *)
Definition Element_packTo (b : JdwpBuffer.t) : JdwpBuffer.t := b.

Definition Response : Content :=
  {| CODE := None; FLAGS := Some 0x80; packTo := Element_packTo |}.

Definition Failure : Content := Response.

Definition Success : Content :=
  {| CODE := Some 0x0000; FLAGS := Some 0x80; packTo := Element_packTo |}.

Definition Request : Content :=
  {| CODE := None; FLAGS := Some 0x00; packTo := Element_packTo |}.

Definition Event : Content := Request.

(** ** The [Process] object *)

Record Process := {
  xmitbuf : JdwpBuffer.t;
  recvbuf : JdwpBuffer.t;
  initialized : bool;
  nextId : Z;
  (** state of the [Thread] base class: whether the thread was started *)
  started : bool
}.

(** [Process.__init__] *)
Definition Process_init : Process :=
  {| xmitbuf := JdwpBuffer.new;
     recvbuf := JdwpBuffer.new;
     initialized := false;
     nextId := 3;
     started := false |}.

Definition set_xmitbuf (b : JdwpBuffer.t) (p : Process) : Process :=
  {| xmitbuf := b; recvbuf := recvbuf p; initialized := initialized p;
     nextId := nextId p; started := started p |}.

Definition set_recvbuf (b : JdwpBuffer.t) (p : Process) : Process :=
  {| xmitbuf := xmitbuf p; recvbuf := b; initialized := initialized p;
     nextId := nextId p; started := started p |}.

Definition set_initialized (v : bool) (p : Process) : Process :=
  {| xmitbuf := xmitbuf p; recvbuf := recvbuf p; initialized := v;
     nextId := nextId p; started := started p |}.

Definition set_nextId (v : Z) (p : Process) : Process :=
  {| xmitbuf := xmitbuf p; recvbuf := recvbuf p; initialized := initialized p;
     nextId := v; started := started p |}.

Definition set_started (v : bool) (p : Process) : Process :=
  {| xmitbuf := xmitbuf p; recvbuf := recvbuf p; initialized := initialized p;
     nextId := nextId p; started := v |}.

(** A call made on the transport, with the bytes it returned or was given. *)
Inductive io_event : Type :=
| Read (n : Z) (data : bytes)
| Write (data : bytes).

Definition written (e : io_event) : bytes :=
  match e with
  | Read _ _ => []
  | Write data => data
  end.

(** All the bytes handed to [write], in order. *)
Definition wire (log : list io_event) : bytes := List.concat (map written log).

Declare Scope proc_scope.
Delimit Scope proc_scope with proc.

Section Processor.

(** The transport: [read] and [write] are arbitrary callables sharing
    some state of their own. *)
Variable T : Type.
Variable transport_read : T -> Z -> bytes * T.
Variable transport_write : T -> bytes -> T.

Record World := {
  self : Process;
  chan : T;
  trace : list io_event
}.

(** A computation runs from a world and ends in a world, either with a
    value or with an exception; what it did before raising stays done. *)
Definition M (A : Type) : Type := World -> World * result A.

Definition ret {A} (a : A) : M A := fun w => (w, Ok a).

Definition raise {A} (e : exn) : M A := fun w => (w, Raise e).

Definition bind {A B} (m : M A) (k : A -> M B) : M B :=
  fun w =>
    match m w with
    | (w', Ok a) => k a w'
    | (w', Raise e) => (w', Raise e)
    end.

Notation "x <- m ;; k" := (bind m (fun x => k))
  (at level 100, m at next level, right associativity) : proc_scope.
Notation "m ;; k" := (bind m (fun _ => k))
  (at level 100, right associativity) : proc_scope.
Local Open Scope proc_scope.

Definition get : M Process := fun w => (w, Ok (self w)).

Definition modify (f : Process -> Process) : M unit :=
  fun w => ({| self := f (self w); chan := chan w; trace := trace w |}, Ok tt).

Definition lift {A} (r : result A) : M A := fun w => (w, r).

(** [self.read(n)] *)
Definition read (n : Z) : M bytes :=
  fun w =>
    let (data, c) := transport_read (chan w) n in
    ({| self := self w; chan := c; trace := trace w ++ [Read n data] |},
     Ok data).

(** [self.write(data)] *)
Definition write (data : bytes) : M unit :=
  fun w =>
    ({| self := self w; chan := transport_write (chan w) data;
        trace := trace w ++ [Write data] |}, Ok tt).

(** [l[i]] *)
Definition getitem (l : list Z) (i : nat) : M Z :=
  match nth_error l i with
  | Some v => ret v
  | None => raise IndexError
  end.

(** [self.recvbuf.unpack(fmt, data)] *)
Definition recvbuf_unpack (fmt : string) (data : bytes) : M (list Z) :=
  p <- get ;;
  lift (JdwpBuffer.unpack (recvbuf p) fmt data).

(** [self.xmitbuf.pack(fmt, *vals)] *)
Definition xmitbuf_pack (fmt : string) (vals : list Z) : M bytes :=
  p <- get ;;
  let (b, r) := JdwpBuffer.pack (xmitbuf p) fmt vals in
  modify (set_xmitbuf b) ;;
  lift r.

(** *** Initialization steps *)

Definition writeIdSzReq : M unit := write IDSZ_REQ.

Definition readHeader : M (list Z) :=
  head <- read 11 ;;
  data <- recvbuf_unpack HEADER_FORMAT head ;;
  (* data[0] -= 11 *)
  match data with
  | size :: rest => ret (size - 11 :: rest)
  | [] => raise IndexError
  end.

Definition readIdSzRes : M unit :=
  head <- readHeader ;;
  h0 <- getitem head 0 ;;
  if negb (h0 =? 20)
  then raise (ProtocolError "expected size of an idsize response")
  else
  h2 <- getitem head 2 ;;
  if negb (h2 =? 0x80)
  then raise (ProtocolError "expected first server message to be a response")
  else
  h1 <- getitem head 1 ;;
  if negb (h1 =? 1)
  then raise (ProtocolError "expected first server message to be 1")
  else
  body <- read 20 ;;
  sizes <- recvbuf_unpack "iiiii" body ;;
  modify (fun p => set_recvbuf (JdwpBuffer.config (recvbuf p) sizes) p) ;;
  modify (fun p => set_xmitbuf (JdwpBuffer.config (xmitbuf p) sizes) p) ;;
  ret tt.

Definition readHandshake : M unit :=
  data <- read (len HANDSHAKE_MSG) ;;
  if negb (bytes_eqb data HANDSHAKE_MSG)
  then e <- lift HandshakeError_new ;; raise e
  else ret tt.

Definition writeHandshake : M unit := write HANDSHAKE_MSG.

(** *** Reading packets *)

Definition readContent (size : Z) : M bytes := read size.

(** *** Transmitting packets *)

Definition writeHeader (size flags event : Z) : M Z :=
  p <- get ;;
  let ident := nextId p in
  modify (set_nextId (nextId p + 2)) ;;
  let size := size + 11 in
  data <- xmitbuf_pack HEADER_FORMAT [size; ident; flags; event] ;;
  write data ;;
  ret ident.

(** [content.code] and [content.flags] *)
Definition Content_code (c : Content) : M Z :=
  match CODE c with
  | Some v => ret v
  | None => raise (AttributeError "CODE")
  end.

Definition Content_flags (c : Content) : M Z :=
  match FLAGS c with
  | Some v => ret v
  | None => raise (AttributeError "FLAGS")
  end.

Definition writeContent (content : Content) : M unit :=
  code <- Content_code content ;;
  flags <- Content_flags content ;;
  modify (fun p => set_xmitbuf (JdwpBuffer.preparePack (xmitbuf p)) p) ;;
  modify (fun p => set_xmitbuf (packTo content (xmitbuf p)) p) ;;
  p <- get ;;
  let data := JdwpBuffer.data (xmitbuf p) in
  let size := len data in
  writeHeader size flags code ;;
  write data.

(** *** Thread API *)

(** [Process.run]: the body is [pass]; the dispatch loop is a comment. *)
Definition run : M unit := ret tt.

(** [Thread.start(self)]: a thread object starts once; the new thread
    executes [run], which has no effect wherever it is scheduled. *)
Definition Thread_start : M unit :=
  p <- get ;;
  if started p
  then raise (RuntimeError "threads can only be started once")
  else modify (set_started true) ;; run.

Definition start : M unit :=
  p <- get ;;
  (if negb (initialized p)
   then
     writeHandshake ;;
     readHandshake ;;
     writeIdSzReq ;;
     readIdSzRes ;;
     modify (set_initialized true) ;;
     Thread_start
   else ret tt) ;;
  ret tt.

End Processor.

Arguments self {T} _.
Arguments chan {T} _.
Arguments trace {T} _.
Arguments ret {T A} _ _.
Arguments raise {T A} _ _.
Arguments bind {T A B} _ _ _.
Arguments get {T} _.
Arguments modify {T} _ _.
Arguments lift {T A} _ _.
Arguments read {T} _ _ _.
Arguments write {T} _ _ _.
Arguments getitem {T} _ _ _.
Arguments recvbuf_unpack {T} _ _ _.
Arguments xmitbuf_pack {T} _ _ _.
Arguments writeIdSzReq {T} _ _.
Arguments readHeader {T} _ _.
Arguments readIdSzRes {T} _ _.
Arguments readHandshake {T} _ _.
Arguments writeHandshake {T} _ _.
Arguments readContent {T} _ _ _.
Arguments writeHeader {T} _ _ _ _ _.
Arguments Content_code {T} _ _.
Arguments Content_flags {T} _ _.
Arguments writeContent {T} _ _ _.
Arguments run {T} _.
Arguments Thread_start {T} _.
Arguments start {T} _ _ _.

(** ** A concrete transport: a byte stream *)

(** The peer's bytes are queued in order; [read n] takes up to [n] of them
    (fewer when the stream ends early) and [write] sends to a peer that is
    not listening. *)
Module Stream.

Definition T : Type := bytes.

Definition read (s : T) (n : Z) : bytes * T :=
  (firstn (Z.to_nat n) s, skipn (Z.to_nat n) s).

Definition write (s : T) (_ : bytes) : T := s.

Definition world (p : Process) (input : bytes) : World T :=
  {| self := p; chan := input; trace := [] |}.

End Stream.

(** ** Vocabulary of the properties *)

(** The values of a format are those its fields can carry. *)
Fixpoint fields_in_range (fmt : list ascii) (vals : list Z) : Prop :=
  match fmt, vals with
  | [], [] => True
  | c :: fmt', v :: vals' =>
      match JdwpBuffer.field_of_char c with
      | Some f => JdwpBuffer.in_range f v
      | None => False
      end /\ fields_in_range fmt' vals'
  | _, _ => False
  end.

(** A header tuple that the layout [int32 | int32 | uint8 | uint16] can
    carry, the first field holding the body length plus 11. *)
Definition valid_header (size ident flags code : Z) : Prop :=
  - 2 ^ 31 <= size + 11 < 2 ^ 31 /\
  - 2 ^ 31 <= ident < 2 ^ 31 /\
  0 <= flags < 2 ^ 8 /\
  0 <= code < 2 ^ 16.

(** The 11 bytes of a header whose first field is [size]. *)
Definition header_bytes (size ident flags code : Z) : bytes :=
  JdwpBuffer.be_encode 4 size ++ JdwpBuffer.be_encode 4 ident
  ++ JdwpBuffer.be_encode 1 flags ++ JdwpBuffer.be_encode 2 code.

(** A computation that never changes the id counter, however it ends. *)
Definition keeps_nextId {T A} (m : M T A) : Prop :=
  forall (w w' : World T) (r : result A),
    m w = (w', r) -> nextId (self w') = nextId (self w).

(** The reply flag is bit 0x80 of the flags byte. *)
Definition reply_flag_set (flags : Z) : bool := Z.testbit flags 7.

Definition is_ProtocolError {A} (r : result A) : bool :=
  match r with
  | Raise (ProtocolError _) => true
  | _ => false
  end.

Definition is_HandshakeError {A} (r : result A) : bool :=
  match r with
  | Raise (HandshakeError _) => true
  | _ => false
  end.

(** The 32-bit integer that format ['i'] reads at offset [k]. *)
Definition int32_at (k : nat) (data : bytes) : Z :=
  JdwpBuffer.to_signed 4 (JdwpBuffer.be_decode (firstn 4 (skipn k data))).

(** A caller issuing one header after another, collecting the ids that
    [writeHeader] returns; a request is (size, flags, event). *)
Fixpoint writeHeaders {T} (twrite : T -> bytes -> T)
    (reqs : list (Z * Z * Z)) : M T (list Z) :=
  match reqs with
  | [] => ret []
  | (size, flags, event) :: rest =>
      bind (writeHeader twrite size flags event) (fun ident =>
      bind (writeHeaders twrite rest) (fun ids =>
      ret (ident :: ids)))
  end.

(** [n] ids counted from [first] in steps of 2. *)
Fixpoint ids_from (first : Z) (n : nat) : list Z :=
  match n with
  | O => []
  | S n' => first :: ids_from (first + 2) n'
  end.

(** The headers that go out for requests [reqs] given ids [ids]. *)
Fixpoint headers_for (reqs : list (Z * Z * Z)) (ids : list Z) : list io_event :=
  match reqs, ids with
  | (size, flags, event) :: reqs', ident :: ids' =>
      Write (header_bytes (size + 11) ident flags event) :: headers_for reqs' ids'
  | _, _ => []
  end.

(** The id counter holds an odd number, 3 or more. *)
Definition odd_id (p : Process) : Prop :=
  Z.odd (nextId p) = true /\ 3 <= nextId p.

(** The message of the [ProtocolError] that [readIdSzRes] raises for a
    header (size, ident, flags) that it rejects: the checks run in the
    order size, flags, id and the first that fails speaks. *)
Definition idsz_complaint (size ident flags : Z) : string :=
  if negb (size =? 20) then "expected size of an idsize response"
  else if negb (flags =? 0x80)
  then "expected first server message to be a response"
  else "expected first server message to be 1".

(** The body that [writeContent] packs for [content] on object [p]: what
    [packTo] leaves in the transmit buffer after [preparePack]. *)
Definition body_of (content : Content) (p : Process) : bytes :=
  JdwpBuffer.data (packTo content (JdwpBuffer.preparePack (xmitbuf p))).

(** ** Sample peers *)

Definition zeros (n : nat) : bytes := repeat x00 n.

(** A bootstrap reply: body length 20, id 1, flags 0x80, error code 0, and
    the five widths 4, 8, 8, 8, 4. *)
Definition idsz_reply : bytes :=
  [ x00; x00; x00; x1f;  x00; x00; x00; x01;  x80;  x00; x00
  ; x00; x00; x00; x04;  x00; x00; x00; x08;  x00; x00; x00; x08
  ; x00; x00; x00; x08;  x00; x00; x00; x04 ].

(** The same header with flags 0x00, and with flags 0x81. *)
Definition idsz_reply_flags_00 : bytes :=
  [ x00; x00; x00; x1f;  x00; x00; x00; x01;  x00;  x00; x00 ] ++ zeros 20.

Definition idsz_reply_flags_81 : bytes :=
  [ x00; x00; x00; x1f;  x00; x00; x00; x01;  x81;  x00; x00 ] ++ zeros 20.

(** A header whose length field is 0. *)
Definition header_length_0 : bytes :=
  [ x00; x00; x00; x00;  x00; x00; x00; x09;  x80;  x00; x00 ].

(** An empty reply to request 9. *)
Definition reply_to_9 : bytes :=
  [ x00; x00; x00; x0b;  x00; x00; x00; x09;  x80;  x00; x00 ].

(** A peer that answers the handshake with the last letter changed. *)
Definition bad_handshake : bytes := bytes_of_string "JDWP-Handshakf".

(** A peer that completes the handshake and the negotiation. *)
Definition good_peer : bytes := HANDSHAKE_MSG ++ idsz_reply.

(** A request class with command 1:1 whose [packTo] packs two bytes. *)
Definition sample_request : Content :=
  {| CODE := Some 0x0101;
     FLAGS := Some 0x00;
     packTo := fun b =>
       {| JdwpBuffer.sizes := JdwpBuffer.sizes b;
          JdwpBuffer.buf := JdwpBuffer.buf b ++ [x2a; x2b] |} |}.

(** * Properties *)

(** ** The codec *)

Module JdwpBufferFacts.
Import JdwpBuffer.

Lemma Z_of_byte_of_Z v : Z_of_byte (byte_of_Z v) = v mod 256.
Proof.
  unfold Z_of_byte, byte_of_Z.
  assert (Hr : 0 <= v mod 256 < 256) by (apply Z.mod_pos_bound; lia).
  destruct (Byte.of_N (Z.to_N (v mod 256))) as [b|] eqn:E.
  - apply Byte.to_of_N in E. rewrite E. lia.
  - apply Byte.of_N_None_iff in E. lia.
Qed.

Lemma length_be_encode w v : List.length (be_encode w v) = w.
Proof. induction w; simpl; congruence. Qed.

Lemma be_decode_from_encode w : forall acc v,
  be_decode_from acc (be_encode w v)
  = acc * 2 ^ (8 * Z.of_nat w) + v mod 2 ^ (8 * Z.of_nat w).
Proof.
  induction w as [|w IH]; intros acc v.
  - simpl. rewrite Z.mod_1_r. lia.
  - cbn [be_encode be_decode_from]. rewrite IH, Z_of_byte_of_Z.
    rewrite Z.shiftr_div_pow2 by lia.
    replace (8 * Z.of_nat (S w)) with (8 * Z.of_nat w + 8) by lia.
    rewrite Z.pow_add_r by lia.
    change (2 ^ 8) with 256.
    rewrite (Z.rem_mul_r v (2 ^ (8 * Z.of_nat w)) 256) by lia.
    ring.
Qed.

Lemma be_decode_encode w v :
  be_decode (be_encode w v) = v mod 2 ^ (8 * Z.of_nat w).
Proof. unfold be_decode. rewrite be_decode_from_encode. lia. Qed.

(** A value in the range of a field survives encoding and decoding. *)
Lemma decode_encode f v :
  (0 < width f)%nat -> in_range f v -> decode f (encode f v) = v.
Proof.
  intros Hw Hr. unfold decode, encode, in_range in *.
  rewrite be_decode_encode.
  set (n := 8 * Z.of_nat (width f)) in *.
  assert (Hn : 0 < n) by lia.
  assert (H2 : 2 ^ n = 2 * 2 ^ (n - 1)).
  { rewrite <- Z.pow_succ_r by lia. f_equal. lia. }
  assert (Hp : 0 < 2 ^ (n - 1)) by (apply Z.pow_pos_nonneg; lia).
  destruct (signed f).
  - unfold to_signed. fold n.
    destruct (Z_lt_le_dec v 0) as [Hneg|Hpos].
    + assert (E : v mod 2 ^ n = v + 2 ^ n).
      { symmetry. apply Z.mod_unique with (q := -1); lia. }
      rewrite E. destruct (Z.ltb_spec (v + 2 ^ n) (2 ^ (n - 1))); lia.
    + rewrite Z.mod_small by lia.
      destruct (Z.ltb_spec v (2 ^ (n - 1))); lia.
  - apply Z.mod_small. lia.
Qed.

Lemma field_of_char_width c f :
  field_of_char c = Some f -> (0 < width f)%nat.
Proof.
  unfold field_of_char.
  repeat match goal with
         | |- context [if ?b then _ else _] => destruct b
         end; intros E; inversion E; simpl; lia.
Qed.

(** Unpacking what was packed gives the values back; bytes that follow
    the packed fields are ignored. *)
Lemma unpack_pack_fields fmt : forall vals out extra,
  pack_fields fmt vals = Some out ->
  fields_in_range fmt vals ->
  unpack_fields fmt (out ++ extra) = Some vals.
Proof.
  induction fmt as [|c fmt IH]; intros [|v vals] out extra; simpl;
    try discriminate; try tauto.
  destruct (field_of_char c) as [f|] eqn:Ef; try discriminate.
  destruct (pack_fields fmt vals) as [rest|] eqn:Ep; try discriminate.
  intros E [Hv Hvs]. inversion E; subst out; clear E.
  pose proof (field_of_char_width _ _ Ef) as Hw.
  rewrite <- app_assoc.
  assert (Hl : List.length (encode f v) = width f)
    by apply length_be_encode.
  rewrite length_app, Hl.
  destruct (Nat.ltb_spec (width f + List.length (rest ++ extra)) (width f));
    [lia|].
  rewrite skipn_app, firstn_app, Hl, Nat.sub_diag. simpl.
  rewrite skipn_all2, firstn_all2 by lia. simpl.
  rewrite app_nil_r, (IH _ _ _ Ep Hvs), decode_encode by assumption.
  reflexivity.
Qed.

(** The header format always packs four values, into 11 bytes. *)
Lemma pack_header_bytes b size ident flags code :
  pack b HEADER_FORMAT [size; ident; flags; code]
  = ({| sizes := sizes b; buf := header_bytes size ident flags code |},
     Ok (header_bytes size ident flags code)).
Proof.
  unfold pack. cbn [HEADER_FORMAT list_ascii_of_string pack_fields].
  cbn [field_of_char Ascii.eqb Bool.eqb encode width].
  rewrite app_nil_r. reflexivity.
Qed.

End JdwpBufferFacts.

(** ** The processor *)

Section ProcessorFacts.

Context {T : Type}.
Variable tread : T -> Z -> bytes * T.
Variable twrite : T -> bytes -> T.

Lemma length_header_bytes size ident flags code :
  len (header_bytes size ident flags code) = 11.
Proof.
  unfold len, header_bytes.
  rewrite !length_app, !JdwpBufferFacts.length_be_encode. reflexivity.
Qed.

(** What [writeHeader] does, in one equation. *)
Lemma writeHeader_eq (w : World T) size flags event :
  writeHeader twrite size flags event w
  = (let hdr := header_bytes (size + 11) (nextId (self w)) flags event in
     {| self := set_xmitbuf
                  {| JdwpBuffer.sizes := JdwpBuffer.sizes (xmitbuf (self w));
                     JdwpBuffer.buf := hdr |}
                  (set_nextId (nextId (self w) + 2) (self w));
        chan := twrite (chan w) hdr;
        trace := trace w ++ [Write hdr] |},
     Ok (nextId (self w))).
Proof.
  unfold writeHeader, xmitbuf_pack, bind, get, modify, lift, write, ret.
  cbn [self chan trace xmitbuf set_nextId].
  rewrite JdwpBufferFacts.pack_header_bytes. reflexivity.
Qed.

(** What [readHeader] does with the bytes that [read(11)] returns. *)
Lemma readHeader_eq (w : World T) :
  readHeader tread w
  = (let (data, c) := tread (chan w) 11 in
     let w' := {| self := self w; chan := c;
                  trace := trace w ++ [Read 11 data] |} in
     match JdwpBuffer.unpack_fields (list_ascii_of_string HEADER_FORMAT) data with
     | Some (size :: rest) => (w', Ok (size - 11 :: rest))
     | Some [] => (w', Raise IndexError)
     | None => (w', Raise (CodecError "unpack"))
     end).
Proof.
  unfold readHeader, recvbuf_unpack, bind, get, lift, read, ret, raise.
  destruct (tread (chan w) 11) as [data c].
  cbn [self chan trace]. unfold JdwpBuffer.unpack.
  destruct (JdwpBuffer.unpack_fields _ data) as [[|size rest]|]; reflexivity.
Qed.

(** The header format unpacks to four values. *)
Lemma unpack_header_shape data vs :
  JdwpBuffer.unpack_fields (list_ascii_of_string HEADER_FORMAT) data = Some vs ->
  exists raw ident flags code, vs = [raw; ident; flags; code].
Proof.
  cbn [HEADER_FORMAT list_ascii_of_string JdwpBuffer.unpack_fields].
  cbn [JdwpBuffer.field_of_char Ascii.eqb Bool.eqb JdwpBuffer.width].
  repeat match goal with
         | |- context [if ?b then _ else _] => destruct b; try discriminate
         end.
  intros E. inversion E. eauto.
Qed.

(** C4: a header written by [writeHeader] and read back by [readHeader]
    gives the tuple (body length, id, flags, code) that went in, the id
    being the one [writeHeader] assigned: the length field on the wire is
    the body length plus 11 and [readHeader] takes the 11 off again. *)
Theorem writeHeader_readHeader_roundtrip
    (w : World T) (size flags event : Z)
    (Hvalid : valid_header size (nextId (self w)) flags event) :
  exists w' hdr,
    writeHeader twrite size flags event w = (w', Ok (nextId (self w))) /\
    trace w' = trace w ++ [Write hdr] /\
    hdr = header_bytes (size + 11) (nextId (self w)) flags event /\
    len hdr = 11 /\
    forall (r : World T) (c : T),
      tread (chan r) 11 = (hdr, c) ->
      readHeader tread r
      = ({| self := self r; chan := c; trace := trace r ++ [Read 11 hdr] |},
         Ok [size; nextId (self w); flags; event]).
Proof.
  rewrite writeHeader_eq. cbv zeta.
  eexists _, _. split; [reflexivity|]. cbn [trace].
  split; [reflexivity|]. split; [reflexivity|].
  split; [apply length_header_bytes|].
  intros r c Hr. rewrite readHeader_eq, Hr.
  destruct Hvalid as (Hs & Hi & Hf & Hc).
  pose proof (JdwpBufferFacts.unpack_pack_fields
                (list_ascii_of_string HEADER_FORMAT)
                [size + 11; nextId (self w); flags; event]
                (header_bytes (size + 11) (nextId (self w)) flags event)
                []) as Hrt.
  rewrite app_nil_r in Hrt. rewrite Hrt.
  - cbv zeta. do 3 f_equal. lia.
  - cbn. unfold JdwpBuffer.encode, header_bytes. cbn [JdwpBuffer.width].
    rewrite ?app_nil_r. reflexivity.
  - cbn. unfold JdwpBuffer.in_range. cbn. repeat split; lia.
Qed.

(** A header that [readHeader] returns has four entries, the first being
    the length field less 11. *)
Lemma readHeader_Ok (w w1 : World T) head :
  readHeader tread w = (w1, Ok head) ->
  exists data c raw ident flags code,
    tread (chan w) 11 = (data, c) /\
    JdwpBuffer.unpack_fields (list_ascii_of_string HEADER_FORMAT) data
    = Some [raw; ident; flags; code] /\
    w1 = {| self := self w; chan := c; trace := trace w ++ [Read 11 data] |} /\
    head = [raw - 11; ident; flags; code].
Proof.
  rewrite readHeader_eq.
  destruct (tread (chan w) 11) as [data c].
  destruct (JdwpBuffer.unpack_fields _ data) as [vs|] eqn:E;
    [|discriminate].
  destruct (unpack_header_shape _ _ E) as (raw & ident & flags & code & ->).
  cbv zeta. intros H. inversion H; subst.
  exists data, c, raw, ident, flags, code. auto.
Qed.

(** What [readIdSzRes] does once the header is in. *)
Lemma readIdSzRes_eq (w w1 : World T) size ident flags code :
  readHeader tread w = (w1, Ok [size; ident; flags; code]) ->
  readIdSzRes tread w
  = if negb (size =? 20)
    then (w1, Raise (ProtocolError "expected size of an idsize response"))
    else if negb (flags =? 0x80)
    then (w1, Raise (ProtocolError
                       "expected first server message to be a response"))
    else if negb (ident =? 1)
    then (w1, Raise (ProtocolError "expected first server message to be 1"))
    else
      let (body, c) := tread (chan w1) 20 in
      match JdwpBuffer.unpack_fields (list_ascii_of_string "iiiii") body with
      | Some sizes =>
          ({| self := set_xmitbuf
                        (JdwpBuffer.config (xmitbuf (self w1)) sizes)
                        (set_recvbuf
                           (JdwpBuffer.config (recvbuf (self w1)) sizes)
                           (self w1));
              chan := c;
              trace := trace w1 ++ [Read 20 body] |}, Ok tt)
      | None =>
          ({| self := self w1; chan := c;
              trace := trace w1 ++ [Read 20 body] |},
           Raise (CodecError "unpack"))
      end.
Proof.
  intros Hh. unfold readIdSzRes, bind at 1. rewrite Hh.
  unfold getitem, bind, ret, raise. cbn [nth_error].
  destruct (size =? 20); cbn [negb]; [|reflexivity].
  destruct (flags =? 128); cbn [negb]; [|reflexivity].
  destruct (ident =? 1); cbn [negb]; [|reflexivity].
  unfold read, recvbuf_unpack, bind, get, lift, modify, ret.
  destruct (tread (chan w1) 20) as [body c]. cbn [self chan trace].
  unfold JdwpBuffer.unpack.
  destruct (JdwpBuffer.unpack_fields _ body); reflexivity.
Qed.

(** C1, as the code has it: once the reply header is in,
    [readIdSzRes] raises [ProtocolError] if and only if the body length
    is not 20, or the flags byte is not exactly 0x80, or the id is not 1;
    in particular a reply with flags 0x00 raises [ProtocolError]. *)
Theorem readIdSzRes_ProtocolError_iff
    (w w1 : World T) (head : list Z)
    (Hhead : readHeader tread w = (w1, Ok head)) :
  exists size ident flags code,
    head = [size; ident; flags; code] /\
    (is_ProtocolError (snd (readIdSzRes tread w)) = true
     <-> size <> 20 \/ flags <> 0x80 \/ ident <> 1) /\
    (flags = 0x00 -> is_ProtocolError (snd (readIdSzRes tread w)) = true).
Proof.
  destruct (readHeader_Ok _ _ _ Hhead)
    as (data & c & raw & ident & flags & code & _ & _ & _ & ->).
  exists (raw - 11), ident, flags, code. split; [reflexivity|].
  rewrite (readIdSzRes_eq _ _ _ _ _ _ Hhead).
  destruct (Z.eqb_spec (raw - 11) 20) as [Hs|Hs]; cbn [negb];
    [|cbn [snd is_ProtocolError];
      split; [split; [intros _; left; exact Hs|]|]; intros; reflexivity].
  destruct (Z.eqb_spec flags 0x80) as [Hf|Hf]; cbn [negb];
    [|cbn [snd is_ProtocolError];
      split; [split; [intros _; right; left; exact Hf|]|];
      intros; reflexivity].
  destruct (Z.eqb_spec ident 1) as [Hi|Hi]; cbn [negb];
    [|cbn [snd is_ProtocolError];
      split; [split; [intros _; right; right; exact Hi|]|];
      intros; reflexivity].
  destruct (tread (chan w1) 20) as [body c'].
  destruct (JdwpBuffer.unpack_fields _ body);
    cbn [snd is_ProtocolError]; (split; [split|]);
    solve [ discriminate
          | intros [H|[H|H]]; contradiction
          | intros H0; rewrite H0 in Hf; discriminate Hf ].
Qed.

(** C6: on a bootstrap reply whose header is (20, 1, 0x80, _),
    [readIdSzRes] asks the transport for 20 more bytes, reads them as
    five big-endian 32-bit integers and configures both [recvbuf] and
    [xmitbuf] with exactly those five widths. *)
Theorem readIdSzRes_configures
    (w w1 : World T) (code : Z) (body : bytes) (c : T)
    (Hhead : readHeader tread w = (w1, Ok [20; 1; 0x80; code]))
    (Hread : tread (chan w1) 20 = (body, c))
    (Hbody : (20 <= List.length body)%nat) :
  exists w2,
    readIdSzRes tread w = (w2, Ok tt) /\
    trace w2 = trace w1 ++ [Read 20 body] /\
    let widths := [int32_at 0 body; int32_at 4 body; int32_at 8 body;
                   int32_at 12 body; int32_at 16 body] in
    JdwpBuffer.sizes (recvbuf (self w2)) = Some widths /\
    JdwpBuffer.sizes (xmitbuf (self w2)) = Some widths /\
    nextId (self w2) = nextId (self w) /\
    initialized (self w2) = initialized (self w).
Proof.
  rewrite (readIdSzRes_eq _ _ _ _ _ _ Hhead). cbn [Z.eqb Pos.eqb negb].
  rewrite Hread.
  destruct (readHeader_Ok _ _ _ Hhead)
    as (data & c0 & raw & ident & flags & code' & _ & _ & -> & _).
  assert (Hu : JdwpBuffer.unpack_fields (list_ascii_of_string "iiiii") body
               = Some [int32_at 0 body; int32_at 4 body; int32_at 8 body;
                       int32_at 12 body; int32_at 16 body]).
  { cbn [list_ascii_of_string JdwpBuffer.unpack_fields].
    cbn [JdwpBuffer.field_of_char Ascii.eqb Bool.eqb JdwpBuffer.width].
    rewrite !length_skipn.
    repeat match goal with
           | |- context [(?a <? ?b)%nat] =>
               destruct (Nat.ltb_spec a b); [lia|]
           end.
    rewrite !skipn_skipn. reflexivity. }
  rewrite Hu. eexists. split; [reflexivity|]. cbn. auto.
Qed.

(** C9, as the code has it: [readHeader] returns the length field less
    11 whatever the field holds, so the body length it reports is
    non-negative exactly when the length field is at least 11. *)
Theorem readHeader_body_length
    (w w1 : World T) (head : list Z)
    (Hhead : readHeader tread w = (w1, Ok head)) :
  exists data c raw ident flags code,
    tread (chan w) 11 = (data, c) /\
    JdwpBuffer.unpack_fields (list_ascii_of_string HEADER_FORMAT) data
    = Some [raw; ident; flags; code] /\
    head = [raw - 11; ident; flags; code] /\
    (0 <= nth 0 head 0 <-> 11 <= raw).
Proof.
  destruct (readHeader_Ok _ _ _ Hhead)
    as (data & c & raw & ident & flags & code & Hr & Hu & _ & ->).
  exists data, c, raw, ident, flags, code.
  repeat split; auto; cbn [nth]; lia.
Qed.

(** *** The handshake *)

Lemma bytes_eqb_eq a b : bytes_eqb a b = true <-> a = b.
Proof.
  unfold bytes_eqb. destruct (list_eq_dec Byte.byte_eq_dec a b); split;
    auto; discriminate.
Qed.

(** What [readHandshake] does with the bytes that [read(14)] returns:
    on a mismatch the exception that surfaces is the [NameError] from
    the constructor of [HandshakeError]. *)
Lemma readHandshake_eq (w : World T) :
  readHandshake tread w
  = (let (data, c) := tread (chan w) 14 in
     ({| self := self w; chan := c; trace := trace w ++ [Read 14 data] |},
      if bytes_eqb data HANDSHAKE_MSG then Ok tt
      else Raise (NameError "Error"))).
Proof.
  unfold readHandshake, bind, read.
  change (len HANDSHAKE_MSG) with 14.
  destruct (tread (chan w) 14) as [data c].
  destruct (bytes_eqb data HANDSHAKE_MSG); reflexivity.
Qed.

(** A [start] whose handshake fails has written the token and nothing
    else when the exception leaves it. *)
Lemma start_handshake_mismatch (w : World T) data c :
  initialized (self w) = false ->
  tread (twrite (chan w) HANDSHAKE_MSG) 14 = (data, c) ->
  data <> HANDSHAKE_MSG ->
  start tread twrite w
  = ({| self := self w; chan := c;
        trace := (trace w ++ [Write HANDSHAKE_MSG]) ++ [Read 14 data] |},
     Raise (NameError "Error")).
Proof.
  intros Hi Hr Hd. unfold start, bind at 1 2, get at 1. rewrite Hi.
  cbn [negb]. unfold bind at 1 2, writeHandshake at 1, write at 1.
  rewrite readHandshake_eq. cbn [chan self trace]. rewrite Hr.
  destruct (bytes_eqb data HANDSHAKE_MSG) eqn:E; [|reflexivity].
  apply bytes_eqb_eq in E. contradiction.
Qed.

(** *** Request identifiers *)

Lemma ids_from_seq n : forall first,
  ids_from first n = map (fun k => first + 2 * Z.of_nat k) (seq 0 n).
Proof.
  induction n as [|n IH]; intros first; [reflexivity|].
  cbn [ids_from seq map]. rewrite IH, <- seq_shift, map_map.
  f_equal; [lia|]. apply map_ext. intros k. lia.
Qed.

Lemma ids_from_NoDup first n : NoDup (ids_from first n).
Proof.
  rewrite ids_from_seq. apply Injective_map_NoDup.
  - intros a b H. lia.
  - apply seq_NoDup.
Qed.

Lemma ids_from_In first n x :
  In x (ids_from first n)
  <-> exists k, (k < n)%nat /\ x = first + 2 * Z.of_nat k.
Proof.
  rewrite ids_from_seq, in_map_iff. split.
  - intros (k & <- & Hk). apply in_seq in Hk. exists k. split; [lia|auto].
  - intros (k & Hk & ->). exists k. split; [auto|]. apply in_seq. lia.
Qed.

Lemma writeHeaders_eq reqs : forall w : World T,
  exists w',
    writeHeaders twrite reqs w
    = (w', Ok (ids_from (nextId (self w)) (List.length reqs))) /\
    nextId (self w') = nextId (self w) + 2 * Z.of_nat (List.length reqs) /\
    trace w'
    = trace w ++ headers_for reqs (ids_from (nextId (self w)) (List.length reqs)).
Proof.
  induction reqs as [|[[size flags] event] reqs IH]; intros w.
  - exists w. cbn. rewrite app_nil_r. repeat split; lia.
  - cbn [writeHeaders List.length ids_from headers_for].
    unfold bind at 1. rewrite writeHeader_eq. cbv beta iota zeta.
    unfold bind at 1.
    match goal with
    | |- context [writeHeaders twrite reqs ?w1] =>
        destruct (IH w1) as (w' & Hrun & Hid & Htr)
    end.
    cbn [self nextId set_xmitbuf set_nextId trace] in Hrun, Hid, Htr.
    exists w'. rewrite Hrun. unfold ret.
    split; [reflexivity|]. split; [lia|].
    rewrite Htr, <- app_assoc. reflexivity.
Qed.

(** C5: the counter is seeded at 3 and each [writeHeader] takes the
    current value and advances it by 2, so [N] requests in a row are
    given exactly the ids 3, 5, ..., 3 + 2(N-1), each once, and every
    header that goes out carries the id that its call returned. *)
Theorem request_ids
    (w : World T) (reqs : list (Z * Z * Z))
    (Hseed : nextId (self w) = 3) :
  nextId Process_init = 3 /\
  exists w',
    let N := List.length reqs in
    let ids := ids_from 3 N in
    writeHeaders twrite reqs w = (w', Ok ids) /\
    ids = map (fun k => 3 + 2 * Z.of_nat k) (seq 0 N) /\
    NoDup ids /\
    (forall x, In x ids <-> exists k, (k < N)%nat /\ x = 3 + 2 * Z.of_nat k) /\
    trace w' = trace w ++ headers_for reqs ids /\
    nextId (self w') = 3 + 2 * Z.of_nat N.
Proof.
  split; [reflexivity|].
  destruct (writeHeaders_eq reqs w) as (w' & Hrun & Hid & Htr).
  rewrite Hseed in *. exists w'. cbv zeta.
  split; [exact Hrun|]. split; [apply ids_from_seq|].
  split; [apply ids_from_NoDup|]. split; [apply ids_from_In|].
  split; assumption.
Qed.

(** *** The bootstrap request *)

(** C7: [writeIdSzReq] hands the transport the literal 11 bytes of
    [IDSZ_REQ] in one [write] and touches nothing else, the id counter
    included; the bytes are a header with length field 11, id 1, flags
    0x00, command set 1 and command 7, followed by no body. *)
Theorem writeIdSzReq_literal (w : World T) :
  writeIdSzReq twrite w
  = ({| self := self w; chan := twrite (chan w) IDSZ_REQ;
        trace := trace w ++ [Write IDSZ_REQ] |}, Ok tt) /\
  nextId (self (fst (writeIdSzReq twrite w))) = nextId (self w) /\
  nextId Process_init = 3 /\
  len IDSZ_REQ = 11 /\
  IDSZ_REQ = header_bytes 11 1 0x00 (1 * 256 + 7) /\
  JdwpBuffer.unpack_fields (list_ascii_of_string "44111") IDSZ_REQ
  = Some [11; 1; 0x00; 1; 7] /\
  JdwpBuffer.unpack_fields (list_ascii_of_string HEADER_FORMAT) IDSZ_REQ
  = Some [11; 1; 0x00; 0x0107].
Proof.
  repeat split; reflexivity.
Qed.

(** *** Sending content *)


(** *** The thread *)

Lemma start_initialized (w : World T) :
  initialized (self w) = true -> start tread twrite w = (w, Ok tt).
Proof.
  intros Hi. unfold start, bind, get. rewrite Hi. reflexivity.
Qed.

Lemma start_Ok_initialized (w w' : World T) :
  start tread twrite w = (w', Ok tt) -> initialized (self w') = true.
Proof.
  unfold start, bind at 1 2, get at 1.
  destruct (initialized (self w)) eqn:Hi; cbn [negb].
  - unfold ret. intros H. inversion H; subst. exact Hi.
  - unfold bind at 1.
    destruct (writeHandshake twrite w) as [w1 [[]|e]]; [|discriminate].
    unfold bind at 1.
    destruct (readHandshake tread w1) as [w2 [[]|e]]; [|discriminate].
    unfold bind at 1.
    destruct (writeIdSzReq twrite w2) as [w3 [[]|e]]; [|discriminate].
    unfold bind at 1.
    destruct (readIdSzRes tread w3) as [w4 [[]|e]]; [|discriminate].
    unfold Thread_start, run, modify, get, ret, raise, bind.
    cbn [self chan trace set_initialized started].
    destruct (started (self w4)); [discriminate|].
    intros H. inversion H; subst. reflexivity.
Qed.

(** Negotiation leaves the id counter alone: no step of [start] assigns
    to [nextId], however the call ends. *)

Lemma keeps_nextId_ret {A} (a : A) : keeps_nextId (ret (T := T) a).
Proof. intros w w' r H. inversion H; reflexivity. Qed.

Lemma keeps_nextId_raise {A} e : keeps_nextId (raise (T := T) (A := A) e).
Proof. intros w w' r H. inversion H; reflexivity. Qed.

Lemma keeps_nextId_lift {A} (x : result A) : keeps_nextId (lift (T := T) x).
Proof. intros w w' r H. inversion H; reflexivity. Qed.

Lemma keeps_nextId_get : keeps_nextId (get (T := T)).
Proof. intros w w' r H. inversion H; reflexivity. Qed.

Lemma keeps_nextId_read n : keeps_nextId (read tread n).
Proof.
  intros w w' r. unfold read. destruct (tread (chan w) n).
  intros H. inversion H; reflexivity.
Qed.

Lemma keeps_nextId_write data : keeps_nextId (write twrite data).
Proof. intros w w' r H. inversion H; reflexivity. Qed.

Lemma keeps_nextId_modify f :
  (forall p, nextId (f p) = nextId p) -> keeps_nextId (modify (T := T) f).
Proof. intros Hf w w' r H. inversion H. apply Hf. Qed.

Lemma keeps_nextId_bind {A B} (m : M T A) (k : A -> M T B) :
  keeps_nextId m -> (forall a, keeps_nextId (k a)) -> keeps_nextId (bind m k).
Proof.
  intros Hm Hk w w' r. unfold bind.
  destruct (m w) as [w1 [a|e]] eqn:E.
  - intros H. rewrite (Hk _ _ _ _ H). exact (Hm _ _ _ E).
  - intros H. inversion H; subst. exact (Hm _ _ _ E).
Qed.

Ltac keeps_nextId_step :=
  first
    [ apply keeps_nextId_ret | apply keeps_nextId_raise
    | apply keeps_nextId_lift | apply keeps_nextId_get
    | apply keeps_nextId_read | apply keeps_nextId_write
    | apply keeps_nextId_modify; intros ?; reflexivity
    | apply keeps_nextId_bind; [|intros ?]
    | match goal with
      | |- keeps_nextId (if ?b then _ else _) => destruct b
      | |- keeps_nextId (match ?x with _ => _ end) => destruct x
      end ].

Lemma keeps_nextId_readIdSzRes : keeps_nextId (readIdSzRes tread).
Proof.
  unfold readIdSzRes, readHeader, recvbuf_unpack, getitem.
  repeat keeps_nextId_step.
Qed.

Lemma keeps_nextId_start : keeps_nextId (start tread twrite).
Proof.
  unfold start, writeHandshake, readHandshake, writeIdSzReq, Thread_start, run.
  repeat first [ apply keeps_nextId_readIdSzRes | keeps_nextId_step ].
Qed.

(** C10: when a call of [start] has returned, the object is
    initialized, and any further call of [start] returns [None] at once:
    it makes no call on the transport and changes no attribute. *)
Theorem start_idempotent
    (w w' : World T)
    (Hfirst : start tread twrite w = (w', Ok tt)) :
  initialized (self w') = true /\
  start tread twrite w' = (w', Ok tt) /\
  forall n : nat,
    Nat.iter n (fun s => fst (start tread twrite s)) w' = w'.
Proof.
  pose proof (start_Ok_initialized _ _ Hfirst) as Hi.
  pose proof (start_initialized _ Hi) as Hs.
  split; [exact Hi|]. split; [exact Hs|].
  induction n as [|n IH]; [reflexivity|].
  rewrite Nat.iter_succ, IH, Hs. reflexivity.
Qed.

End ProcessorFacts.

(** ** The properties on the byte-stream transport *)

Lemma writeHeader_readHeader_roundtrip_witness :
  valid_header 5 3 0x00 0x0107 /\
  exists w' hdr,
    writeHeader Stream.write 5 0x00 0x0107 (Stream.world Process_init [])
    = (w', Ok 3) /\
    len hdr = 11 /\
    snd (readHeader Stream.read (Stream.world Process_init hdr))
    = Ok [5; 3; 0x00; 0x0107].
Proof.
  assert (Hv : valid_header 5 (nextId (self (Stream.world Process_init [])))
                 0x00 0x0107)
    by (unfold valid_header; cbn; lia).
  split; [exact Hv|].
  destruct (writeHeader_readHeader_roundtrip Stream.read Stream.write
              (Stream.world Process_init []) 5 0x00 0x0107 Hv)
    as (w' & hdr & Hw & _ & Hh & Hl & Hback).
  exists w', hdr. split; [exact Hw|]. split; [exact Hl|].
  rewrite (Hback (Stream.world Process_init hdr) []); [reflexivity|].
  subst hdr. reflexivity.
Defined.

Lemma readIdSzRes_ProtocolError_iff_witness :
  is_ProtocolError
    (snd (readIdSzRes Stream.read
            (Stream.world Process_init idsz_reply_flags_00))) = true.
Proof.
  destruct (readIdSzRes_ProtocolError_iff Stream.read
              (Stream.world Process_init idsz_reply_flags_00) _ _ eq_refl)
    as (size & ident & flags & code & Hh & _ & H0).
  apply H0. inversion Hh. reflexivity.
Defined.

(** C1 as worded fails on flags 0x81: the body length is 20, the reply
    bit is set and the id is 1, and the reply is rejected all the same. *)
Lemma readIdSzRes_rejects_flags_0x81 :
  snd (readHeader Stream.read (Stream.world Process_init idsz_reply_flags_81))
  = Ok [20; 1; 0x81; 0] /\
  snd (readIdSzRes Stream.read (Stream.world Process_init idsz_reply_flags_81))
  = Raise (ProtocolError "expected first server message to be a response") /\
  ~ (is_ProtocolError
       (snd (readIdSzRes Stream.read
               (Stream.world Process_init idsz_reply_flags_81))) = true
     <-> 20 <> 20 \/ reply_flag_set 0x81 = false \/ 1 <> 1).
Proof.
  split; [reflexivity|]. split; [reflexivity|].
  intros [H _]. destruct (H eq_refl) as [H0|[H0|H0]];
    [contradiction | discriminate | contradiction].
Qed.

Lemma readIdSzRes_configures_witness :
  exists w2,
    readIdSzRes Stream.read (Stream.world Process_init idsz_reply)
    = (w2, Ok tt) /\
    trace w2 = [Read 11 (firstn 11 idsz_reply); Read 20 (skipn 11 idsz_reply)] /\
    JdwpBuffer.sizes (recvbuf (self w2)) = Some [4; 8; 8; 8; 4] /\
    JdwpBuffer.sizes (xmitbuf (self w2)) = Some [4; 8; 8; 8; 4].
Proof.
  assert (Hlen : (20 <= List.length (skipn 11 idsz_reply))%nat)
    by (cbn; lia).
  destruct (readIdSzRes_configures Stream.read
              (Stream.world Process_init idsz_reply) _ 0
              (skipn 11 idsz_reply) [] eq_refl eq_refl Hlen)
    as (w2 & Hrun & Htr & Hrecv & Hxmit & _).
  exists w2. repeat split; assumption.
Defined.

Lemma readHeader_body_length_witness :
  exists head,
    snd (readHeader Stream.read (Stream.world Process_init reply_to_9))
    = Ok head /\
    head = [0; 9; 0x80; 0] /\
    0 <= nth 0 head 0.
Proof.
  destruct (readHeader_body_length Stream.read
              (Stream.world Process_init reply_to_9) _ _ eq_refl)
    as (data & c & raw & ident & flags & code & Hr & Hu & Hh & Hiff).
  exists [0; 9; 0x80; 0]. split; [reflexivity|]. split; [reflexivity|].
  apply Hiff. inversion Hr; subst data c.
  vm_compute in Hu. inversion Hu. lia.
Defined.

(** C9 as worded fails on a header whose length field is 0: the body
    length that [readHeader] returns is -11. *)
Lemma readHeader_negative_body_length :
  snd (readHeader Stream.read (Stream.world Process_init header_length_0))
  = Ok [-11; 9; 0x80; 0] /\
  ~ 0 <= nth 0 [-11; 9; 0x80; 0] 0.
Proof.
  split; [reflexivity|]. cbn. lia.
Qed.

(** The session once [start] has run against [good_peer]. *)
Lemma request_ids_witness :
  snd (start Stream.read Stream.write (Stream.world Process_init good_peer))
  = Ok tt /\
  exists w',
    writeHeaders Stream.write
      [(0, 0x00, 0x0101); (4, 0x00, 0x0102); (8, 0x00, 0x0103)]
      (fst (start Stream.read Stream.write
              (Stream.world Process_init good_peer)))
    = (w', Ok [3; 5; 7]) /\
    nextId (self w') = 9.
Proof.
  split; [reflexivity|].
  destruct (request_ids Stream.write
              (fst (start Stream.read Stream.write
                      (Stream.world Process_init good_peer)))
              [(0, 0x00, 0x0101); (4, 0x00, 0x0102); (8, 0x00, 0x0103)]
              eq_refl)
    as (_ & w' & Hrun & _ & _ & _ & _ & Hnext).
  exists w'. split; assumption.
Defined.



Lemma start_idempotent_witness :
  exists w',
    start Stream.read Stream.write (Stream.world Process_init good_peer)
    = (w', Ok tt) /\
    initialized (self w') = true /\
    start Stream.read Stream.write w' = (w', Ok tt).
Proof.
  eexists. split; [reflexivity|].
  destruct (start_idempotent Stream.read Stream.write
              (Stream.world Process_init good_peer) _ eq_refl)
    as (Hi & Hs & _).
  split; [exact Hi | exact Hs].
Defined.

(** C2 on the code: when the peer's 14 bytes are not the token,
    [readHandshake] leaves with the [NameError] raised while
    [HandshakeError()] is being constructed, not with a [HandshakeError];
    [start] has then written the token and nothing more. *)
Theorem readHandshake_mismatch_raises_NameError :
  bad_handshake <> HANDSHAKE_MSG /\
  readHandshake Stream.read (Stream.world Process_init bad_handshake)
  = ({| self := Process_init; chan := [];
        trace := [Read 14 bad_handshake] |},
     Raise (NameError "Error")) /\
  is_HandshakeError
    (snd (readHandshake Stream.read (Stream.world Process_init bad_handshake)))
  = false /\
  start Stream.read Stream.write (Stream.world Process_init bad_handshake)
  = ({| self := Process_init; chan := [];
        trace := [Write HANDSHAKE_MSG; Read 14 bad_handshake] |},
     Raise (NameError "Error")) /\
  readHandshake Stream.read (Stream.world Process_init HANDSHAKE_MSG)
  = ({| self := Process_init; chan := [];
        trace := [Read 14 HANDSHAKE_MSG] |}, Ok tt).
Proof.
  split; [discriminate|]. repeat split; reflexivity.
Qed.

(** C3 on the code: [run] is the stub; it returns at once, reads nothing
    and delivers nothing, whatever the peer has sent. *)
Theorem run_is_a_stub {T : Type} (w : World T) :
  run w = (w, Ok tt) /\
  run (Stream.world Process_init reply_to_9)
  = ({| self := Process_init; chan := reply_to_9; trace := [] |}, Ok tt).
Proof.
  split; reflexivity.
Qed.

(** * Further properties of the processor *)

Section ProcessorBehaviour.

Context {T : Type}.
Variable tread : T -> Z -> bytes * T.
Variable twrite : T -> bytes -> T.

Lemma wire_app (l1 l2 : list io_event) : wire (l1 ++ l2) = wire l1 ++ wire l2.
Proof. unfold wire. rewrite map_app, concat_app. reflexivity. Qed.

Lemma wire_Read (l : list io_event) n data : wire (l ++ [Read n data]) = wire l.
Proof. rewrite wire_app. cbn. apply app_nil_r. Qed.

Lemma wire_Write (l : list io_event) data :
  wire (l ++ [Write data]) = wire l ++ data.
Proof. rewrite wire_app. cbn. rewrite app_nil_r. reflexivity. Qed.

(** *** Reading a header *)

Lemma readHeader_world (w w' : World T) (r : result (list Z)) :
  readHeader tread w = (w', r) ->
  exists data c,
    tread (chan w) 11 = (data, c) /\
    w' = {| self := self w; chan := c; trace := trace w ++ [Read 11 data] |}.
Proof.
  rewrite readHeader_eq.
  destruct (tread (chan w) 11) as [data c]. intros Hrun.
  exists data, c. split; [reflexivity|].
  destruct (JdwpBuffer.unpack_fields _ data) as [[|size rest]|];
    cbv zeta in Hrun; inversion Hrun; reflexivity.
Qed.

(** X1: however [readHeader] ends, with a header or with an exception,
    it has made one call on the transport, [read(11)], has written
    nothing and has left every attribute of the object as it was. *)
Theorem readHeader_footprint
    (w w' : World T) (r : result (list Z))
    (Hrun : readHeader tread w = (w', r)) :
  self w' = self w /\
  wire (trace w') = wire (trace w) /\
  exists data,
    tread (chan w) 11 = (data, chan w') /\
    trace w' = trace w ++ [Read 11 data].
Proof.
  destruct (readHeader_world _ _ _ Hrun) as (data & c & Hr & ->).
  cbn [self chan trace]. split; [reflexivity|].
  split; [apply wire_Read|]. exists data. split; [exact Hr | reflexivity].
Qed.

(** *** A bootstrap reply that is rejected *)

(** X2: when the reply header fails a check, [readIdSzRes] raises
    [ProtocolError] with the message of the first failing check, in the
    order size, flags, id, and stops there: the world is the one
    [readHeader] left, so the body has not been read and neither codec has
    been configured. *)
Theorem readIdSzRes_rejection
    (w w1 : World T) (size ident flags code : Z)
    (Hhead : readHeader tread w = (w1, Ok [size; ident; flags; code]))
    (Hbad : size <> 20 \/ flags <> 0x80 \/ ident <> 1) :
  readIdSzRes tread w
  = (w1, Raise (ProtocolError (idsz_complaint size ident flags))) /\
  self w1 = self w /\
  exists data, trace w1 = trace w ++ [Read 11 data].
Proof.
  split.
  - rewrite (readIdSzRes_eq _ _ _ _ _ _ _ Hhead). unfold idsz_complaint.
    destruct (Z.eqb_spec size 20) as [Hs|Hs]; cbn [negb]; [|reflexivity].
    destruct (Z.eqb_spec flags 0x80) as [Hf|Hf]; cbn [negb]; [|reflexivity].
    destruct (Z.eqb_spec ident 1) as [Hi|Hi]; cbn [negb]; [|reflexivity].
    destruct Hbad as [H|[H|H]]; contradiction.
  - destruct (readHeader_world _ _ _ Hhead) as (data & c & _ & ->).
    split; [reflexivity|]. exists data. reflexivity.
Qed.

(** *** The handshake *)

(** X3: [readHandshake] asks the transport for 14 bytes and returns
    normally exactly when the bytes it gets are the token; either way it
    has made that one call, has written nothing and has changed no
    attribute. *)
Theorem readHandshake_Ok_iff (w : World T) :
  (snd (readHandshake tread w) = Ok tt
   <-> fst (tread (chan w) 14) = HANDSHAKE_MSG) /\
  self (fst (readHandshake tread w)) = self w /\
  trace (fst (readHandshake tread w))
  = trace w ++ [Read 14 (fst (tread (chan w) 14))].
Proof.
  rewrite readHandshake_eq.
  destruct (tread (chan w) 14) as [data c]. cbn [fst snd self trace].
  split; [|split; reflexivity].
  destruct (bytes_eqb data HANDSHAKE_MSG) eqn:E.
  - apply bytes_eqb_eq in E. split; auto.
  - split; [discriminate|]. intros H. apply bytes_eqb_eq in H. congruence.
Qed.

(** *** Content without a code or flags *)

(** X4: [writeContent] reads [content.code] and then [content.flags]
    before anything else, so for a class that leaves [CODE] or [FLAGS]
    undefined it raises [AttributeError] for the first one missing and has
    done nothing: no byte is written, the buffer is untouched and no id
    is used up. *)
Theorem writeContent_undefined_attribute
    (w : World T) (content : Content)
    (Hmissing : CODE content = None \/ FLAGS content = None) :
  writeContent twrite content w
  = (w, Raise (AttributeError
                 (match CODE content with
                  | None => "CODE"
                  | Some _ => "FLAGS"
                  end))).
Proof.
  unfold writeContent, Content_code, Content_flags.
  destruct (CODE content) as [code|].
  - destruct (FLAGS content) as [flags|].
    + destruct Hmissing; discriminate.
    + reflexivity.
  - reflexivity.
Qed.

(** *** Starting the session *)

Lemma unpack_iiiii (body : bytes) :
  (20 <= List.length body)%nat ->
  JdwpBuffer.unpack_fields (list_ascii_of_string "iiiii") body
  = Some [int32_at 0 body; int32_at 4 body; int32_at 8 body;
          int32_at 12 body; int32_at 16 body].
Proof.
  intros Hlen.
  cbn [list_ascii_of_string JdwpBuffer.unpack_fields].
  cbn [JdwpBuffer.field_of_char Ascii.eqb Bool.eqb JdwpBuffer.width].
  rewrite !length_skipn.
  repeat match goal with
         | |- context [(?a <? ?b)%nat] =>
             destruct (Nat.ltb_spec a b); [lia|]
         end.
  rewrite !skipn_skipn. reflexivity.
Qed.

(** What [readIdSzRes] can have done when it is over: it has written
    nothing; if it raised, no attribute has changed; if it returned, both
    codecs were configured with the same widths and nothing else
    changed. *)
Lemma readIdSzRes_outcome (w w' : World T) (r : result unit) :
  readIdSzRes tread w = (w', r) ->
  wire (trace w') = wire (trace w) /\
  match r with
  | Raise _ => self w' = self w
  | Ok _ =>
      exists widths,
        self w'
        = set_xmitbuf (JdwpBuffer.config (xmitbuf (self w)) widths)
            (set_recvbuf (JdwpBuffer.config (recvbuf (self w)) widths)
               (self w))
  end.
Proof.
  intros Hrun.
  destruct (readHeader tread w) as [w1 [head|e]] eqn:Hh.
  - destruct (readHeader_Ok _ _ _ _ Hh)
      as (data & c & raw & ident & flags & code & _ & _ & Hw1 & ->).
    rewrite (readIdSzRes_eq _ _ _ _ _ _ _ Hh) in Hrun. subst w1.
    cbn [self chan trace] in Hrun.
    destruct (negb (raw - 11 =? 20));
      [inversion Hrun; cbn [self trace]; split; [apply wire_Read|reflexivity]|].
    destruct (negb (flags =? 128));
      [inversion Hrun; cbn [self trace]; split; [apply wire_Read|reflexivity]|].
    destruct (negb (ident =? 1));
      [inversion Hrun; cbn [self trace]; split; [apply wire_Read|reflexivity]|].
    destruct (tread c 20) as [body c2].
    destruct (JdwpBuffer.unpack_fields _ body) as [widths|];
      inversion Hrun; cbn [self trace]; rewrite !wire_Read;
      (split; [reflexivity|]).
    + exists widths. reflexivity.
    + reflexivity.
  - unfold readIdSzRes, bind in Hrun. rewrite Hh in Hrun.
    inversion Hrun; subst.
    destruct (readHeader_world _ _ _ Hh) as (data & c & _ & ->).
    cbn [self trace]. split; [apply wire_Read|reflexivity].
Qed.

(** What [start] does on an object that is not initialized, step by
    step. *)
Lemma start_eq (w : World T) :
  initialized (self w) = false ->
  start tread twrite w
  = (let (data, c) := tread (twrite (chan w) HANDSHAKE_MSG) 14 in
     let w2 := {| self := self w; chan := c;
                  trace := (trace w ++ [Write HANDSHAKE_MSG])
                           ++ [Read 14 data] |} in
     if bytes_eqb data HANDSHAKE_MSG
     then
       match readIdSzRes tread
               {| self := self w; chan := twrite c IDSZ_REQ;
                  trace := trace w2 ++ [Write IDSZ_REQ] |}
       with
       | (w4, Ok _) =>
           if started (self w4)
           then ({| self := set_initialized true (self w4);
                    chan := chan w4; trace := trace w4 |},
                 Raise (RuntimeError "threads can only be started once"))
           else ({| self := set_started true
                              (set_initialized true (self w4));
                    chan := chan w4; trace := trace w4 |}, Ok tt)
       | (w4, Raise e) => (w4, Raise e)
       end
     else (w2, Raise (NameError "Error"))).
Proof.
  intros Hi. unfold start, bind at 1 2, get at 1. rewrite Hi. cbn [negb].
  unfold bind at 1 2, writeHandshake at 1, write at 1.
  rewrite readHandshake_eq. cbn [chan self trace].
  destruct (tread (twrite (chan w) HANDSHAKE_MSG) 14) as [data c].
  destruct (bytes_eqb data HANDSHAKE_MSG); [|reflexivity].
  unfold bind at 1, writeIdSzReq at 1, write at 1. cbn [chan self trace].
  unfold bind at 1.
  match goal with
  | |- context [readIdSzRes tread ?w3] =>
      destruct (readIdSzRes tread w3) as [w4 [[]|e]]
  end; [|reflexivity].
  unfold Thread_start, run, modify, get, ret, raise, bind.
  cbn [self chan trace set_initialized started].
  destruct (started (self w4)); reflexivity.
Qed.

(** X5: the only bytes [start] ever writes are the handshake token
    and, once the peer has echoed it, the bootstrap request; this holds
    however the call ends. *)
Theorem start_writes
    (w w' : World T) (r : result unit)
    (Hinit : initialized (self w) = false)
    (Hrun : start tread twrite w = (w', r)) :
  wire (trace w')
  = wire (trace w) ++ HANDSHAKE_MSG
    ++ (if bytes_eqb (fst (tread (twrite (chan w) HANDSHAKE_MSG) 14))
             HANDSHAKE_MSG
        then IDSZ_REQ else []).
Proof.
  rewrite (start_eq _ Hinit) in Hrun.
  destruct (tread (twrite (chan w) HANDSHAKE_MSG) 14) as [data c].
  cbn [fst]. cbv zeta in Hrun.
  destruct (bytes_eqb data HANDSHAKE_MSG).
  - match type of Hrun with
    | context [readIdSzRes tread ?w3] =>
        destruct (readIdSzRes tread w3) as [w4 [[]|e]] eqn:Hres
    end.
    + apply readIdSzRes_outcome in Hres. destruct Hres as [Hwire _].
      cbn [trace] in Hwire. rewrite wire_Write, wire_Read, wire_Write in Hwire.
      rewrite <- app_assoc in Hwire.
      destruct (started (self w4)); inversion Hrun; cbn [trace]; exact Hwire.
    + apply readIdSzRes_outcome in Hres. destruct Hres as [Hwire _].
      cbn [trace] in Hwire. rewrite wire_Write, wire_Read, wire_Write in Hwire.
      rewrite <- app_assoc in Hwire.
      inversion Hrun; subst. exact Hwire.
  - inversion Hrun. cbn [trace].
    rewrite wire_Read, wire_Write, app_nil_r. reflexivity.
Qed.

(** X6: a [start] that raises on a fresh object leaves every attribute
    as it was: it is still not initialized, no codec is configured and the
    thread is not started, so nothing partial is left behind. *)
Theorem start_failure_restores
    (w w' : World T) (e : exn)
    (Hinit : initialized (self w) = false)
    (Hthread : started (self w) = false)
    (Hrun : start tread twrite w = (w', Raise e)) :
  self w' = self w.
Proof.
  rewrite (start_eq _ Hinit) in Hrun.
  destruct (tread (twrite (chan w) HANDSHAKE_MSG) 14) as [data c].
  cbv zeta in Hrun.
  destruct (bytes_eqb data HANDSHAKE_MSG).
  - match type of Hrun with
    | context [readIdSzRes tread ?w3] =>
        destruct (readIdSzRes tread w3) as [w4 [[]|e']] eqn:Hres
    end.
    + apply readIdSzRes_outcome in Hres.
      destruct Hres as [_ (widths & Hself)]. cbn [self] in Hself.
      rewrite Hself in Hrun. cbn [started set_xmitbuf set_recvbuf] in Hrun.
      rewrite Hthread in Hrun. discriminate.
    + apply readIdSzRes_outcome in Hres. destruct Hres as [_ Hself].
      inversion Hrun; subst. exact Hself.
  - inversion Hrun. reflexivity.
Qed.

(** X7: against a peer that echoes the token and answers the bootstrap
    request with a header (20, 1, 0x80, _) and at least 20 body bytes,
    [start] on a fresh object makes exactly five calls on the transport,
    in the order write token, read 14, write request, read 11, read 20,
    and returns with both codecs configured to the five widths of the
    body, the object initialized, the thread started and the id counter
    where it was. *)
Theorem start_success
    (w : World T) (c1 c2 c3 : T) (hdr body : bytes) (code : Z)
    (Hinit : initialized (self w) = false)
    (Hthread : started (self w) = false)
    (Hecho : tread (twrite (chan w) HANDSHAKE_MSG) 14 = (HANDSHAKE_MSG, c1))
    (Hhdr : tread (twrite c1 IDSZ_REQ) 11 = (hdr, c2))
    (Hfields : JdwpBuffer.unpack_fields (list_ascii_of_string HEADER_FORMAT) hdr
               = Some [31; 1; 0x80; code])
    (Hbody : tread c2 20 = (body, c3))
    (Hlen : (20 <= List.length body)%nat) :
  let widths := [int32_at 0 body; int32_at 4 body; int32_at 8 body;
                 int32_at 12 body; int32_at 16 body] in
  start tread twrite w
  = ({| self :=
          {| xmitbuf := JdwpBuffer.config (xmitbuf (self w)) widths;
             recvbuf := JdwpBuffer.config (recvbuf (self w)) widths;
             initialized := true;
             nextId := nextId (self w);
             started := true |};
        chan := c3;
        trace := trace w ++ [Write HANDSHAKE_MSG; Read 14 HANDSHAKE_MSG;
                             Write IDSZ_REQ; Read 11 hdr; Read 20 body] |},
     Ok tt).
Proof.
  cbv zeta. rewrite (start_eq _ Hinit), Hecho.
  change (bytes_eqb HANDSHAKE_MSG HANDSHAKE_MSG) with true. cbv iota zeta.
  match goal with
  | |- context [readIdSzRes tread ?w3] =>
      assert (Hh : readHeader tread w3
                   = ({| self := self w; chan := c2;
                         trace := trace w3 ++ [Read 11 hdr] |},
                      Ok [20; 1; 0x80; code]))
  end.
  { rewrite readHeader_eq. cbn [chan self trace]. rewrite Hhdr, Hfields.
    reflexivity. }
  rewrite (readIdSzRes_eq _ _ _ _ _ _ _ Hh). cbn [Z.eqb Pos.eqb negb].
  cbn [chan self trace]. rewrite Hbody, (unpack_iiiii _ Hlen).
  cbn [self started set_xmitbuf set_recvbuf chan trace].
  rewrite Hthread. cbn [set_initialized set_started set_xmitbuf set_recvbuf
                        xmitbuf recvbuf initialized nextId started].
  rewrite <- !app_assoc. reflexivity.
Qed.

(** X8: no step of [start] touches the id counter: however the call ends,
    [nextId] is what it was, so the first request after a negotiation on a
    fresh object is given id 3. *)
Theorem start_keeps_nextId
    (w w' : World T) (r : result unit)
    (Hrun : start tread twrite w = (w', r)) :
  nextId (self w') = nextId (self w) /\
  forall size flags event,
    snd (writeHeader twrite size flags event w') = Ok (nextId (self w)).
Proof.
  pose proof (keeps_nextId_start tread twrite _ _ _ Hrun) as Hk.
  split; [exact Hk|]. intros size flags event.
  rewrite writeHeader_eq. cbn [snd]. rewrite Hk. reflexivity.
Qed.

(** *** Sending content *)

(** What [writeContent] does for a content that has a code and flags. *)
Lemma writeContent_eq (w : World T) (content : Content) (code flags : Z) :
  CODE content = Some code ->
  FLAGS content = Some flags ->
  let body := body_of content (self w) in
  let hdr := header_bytes (len body + 11) (nextId (self w)) flags code in
  exists w',
    writeContent twrite content w = (w', Ok tt) /\
    trace w' = trace w ++ [Write hdr; Write body] /\
    chan w' = twrite (twrite (chan w) hdr) body /\
    nextId (self w') = nextId (self w) + 2 /\
    recvbuf (self w') = recvbuf (self w) /\
    initialized (self w') = initialized (self w) /\
    started (self w') = started (self w).
Proof.
  intros Hcode Hflags. cbv zeta.
  unfold body_of, writeContent, Content_code, Content_flags.
  rewrite Hcode, Hflags.
  unfold bind at 1 2 3 4 5, ret at 1 2, modify at 1 2, get at 1.
  cbn [self chan trace xmitbuf set_xmitbuf].
  unfold bind. rewrite writeHeader_eq. cbv zeta.
  cbn [self chan trace xmitbuf set_xmitbuf set_nextId nextId].
  unfold write. cbn [self chan trace].
  eexists. split; [reflexivity|]. cbn [trace chan self nextId].
  rewrite <- app_assoc. repeat split; reflexivity.
Qed.

(** X9: a packet sent by [writeContent] is read back whole from a byte
    stream: [readHeader] returns the body length, the id the packet was
    given, the flags and the code, [readContent] with that length returns
    exactly the body, and the stream is left at the first byte after the
    packet. *)
Theorem packet_roundtrip
    (w : World T) (content : Content) (code flags : Z)
    (Hcode : CODE content = Some code)
    (Hflags : FLAGS content = Some flags)
    (Hvalid : valid_header (len (body_of content (self w)))
                (nextId (self w)) flags code)
    (q : Process) (rest : bytes) :
  let body := body_of content (self w) in
  exists w' sent,
    writeContent twrite content w = (w', Ok tt) /\
    wire (trace w') = wire (trace w) ++ sent /\
    len sent = 11 + len body /\
    exists r1 r2,
      readHeader Stream.read (Stream.world q (sent ++ rest))
      = (r1, Ok [len body; nextId (self w); flags; code]) /\
      readContent Stream.read (len body) r1 = (r2, Ok body) /\
      chan r2 = rest /\
      self r2 = q.
Proof.
  cbv zeta.
  destruct (writeContent_eq w content code flags Hcode Hflags)
    as (w' & Hrun & Htr & _).
  cbv zeta in Htr.
  set (body := body_of content (self w)) in *.
  set (hdr := header_bytes (len body + 11) (nextId (self w)) flags code) in *.
  assert (Hl : List.length hdr = 11%nat).
  { unfold hdr, header_bytes.
    rewrite !length_app, !JdwpBufferFacts.length_be_encode. reflexivity. }
  exists w', (hdr ++ body). split; [exact Hrun|].
  split.
  { rewrite Htr, wire_app. cbn. rewrite app_nil_r. reflexivity. }
  split.
  { unfold len. rewrite length_app, Hl. lia. }
  assert (Hread : Stream.read ((hdr ++ body) ++ rest) 11 = (hdr, body ++ rest)).
  { unfold Stream.read. change (Z.to_nat 11) with 11%nat.
    rewrite <- app_assoc, firstn_app, skipn_app, Hl, Nat.sub_diag.
    rewrite firstn_all2, skipn_all2 by lia.
    cbn [firstn skipn app]. rewrite app_nil_r. reflexivity. }
  assert (Hu : JdwpBuffer.unpack_fields (list_ascii_of_string HEADER_FORMAT) hdr
               = Some [len body + 11; nextId (self w); flags; code]).
  { pose proof (JdwpBufferFacts.unpack_pack_fields
                  (list_ascii_of_string HEADER_FORMAT)
                  [len body + 11; nextId (self w); flags; code] hdr [])
      as Hrt.
    rewrite app_nil_r in Hrt. apply Hrt.
    - cbn. unfold JdwpBuffer.encode, hdr, header_bytes. cbn [JdwpBuffer.width].
      rewrite ?app_nil_r. reflexivity.
    - destruct Hvalid as (Hs & Hi & Hf & Hc).
      cbn. unfold JdwpBuffer.in_range. cbn. repeat split; lia. }
  eexists _, _. split.
  { rewrite readHeader_eq. cbn [Stream.world chan self trace].
    rewrite Hread, Hu. cbv zeta. do 3 f_equal. lia. }
  unfold readContent, read, Stream.read. cbn [chan self trace].
  unfold len. rewrite Nat2Z.id, firstn_app, skipn_app, Nat.sub_diag.
  rewrite firstn_all, skipn_all. cbn [firstn skipn app].
  rewrite app_nil_r. repeat split; reflexivity.
Qed.

(** X10: a content class that inherits [Element.packTo], which packs
    nothing, is sent as a bare header: [writeContent] puts exactly 11
    bytes on the wire, with length field 11. *)
Theorem writeContent_inherited_packTo
    (w : World T) (content : Content) (code flags : Z)
    (Hcode : CODE content = Some code)
    (Hflags : FLAGS content = Some flags)
    (Hpack : packTo content = Element_packTo) :
  exists w',
    writeContent twrite content w = (w', Ok tt) /\
    wire (trace w')
    = wire (trace w) ++ header_bytes 11 (nextId (self w)) flags code /\
    len (header_bytes 11 (nextId (self w)) flags code) = 11.
Proof.
  destruct (writeContent_eq w content code flags Hcode Hflags)
    as (w' & Hrun & Htr & _).
  assert (Hb : body_of content (self w) = [])
    by (unfold body_of; rewrite Hpack; reflexivity).
  cbv zeta in Htr. rewrite Hb in Htr. change (len [] + 11) with 11 in Htr.
  exists w'. split; [exact Hrun|]. split.
  - rewrite Htr, wire_app. unfold wire at 2.
    cbn [map written List.concat app]. rewrite app_nil_r. reflexivity.
  - apply length_header_bytes.
Qed.

(** *** The parity of ids *)

Lemma odd_id_step (n : Z) :
  Z.odd n = true /\ 3 <= n -> Z.odd (n + 2) = true /\ 3 <= n + 2.
Proof.
  intros [Ho Hn]. split; [|lia].
  rewrite Z.odd_add, Ho. reflexivity.
Qed.

Lemma ids_from_odd n : forall first,
  Z.odd first = true /\ 3 <= first ->
  Forall (fun i => Z.odd i = true /\ 3 <= i) (ids_from first n).
Proof.
  induction n as [|n IH]; intros first Hf; cbn [ids_from]; constructor.
  - exact Hf.
  - apply IH, odd_id_step, Hf.
Qed.

(** X11: the id counter stays odd and at least 3.  It is so on a new
    object; [writeHeader], [writeContent] and [start] keep it so however
    they end; and so every id given to a run of requests is odd and at
    least 3. *)
Theorem odd_id_invariant
    (w : World T) (Hodd : odd_id (self w)) :
  odd_id Process_init /\
  (forall size flags event w' r,
     writeHeader twrite size flags event w = (w', r) -> odd_id (self w')) /\
  (forall content w' r,
     writeContent twrite content w = (w', r) -> odd_id (self w')) /\
  (forall w' r, start tread twrite w = (w', r) -> odd_id (self w')) /\
  (forall reqs w' ids,
     writeHeaders twrite reqs w = (w', Ok ids) ->
     Forall (fun i => Z.odd i = true /\ 3 <= i) ids /\ odd_id (self w')).
Proof.
  split; [split; [reflexivity | cbn; lia]|].
  split.
  { intros size flags event w' r H. rewrite writeHeader_eq in H.
    inversion H. unfold odd_id. cbn [self nextId set_xmitbuf set_nextId].
    apply odd_id_step, Hodd. }
  split.
  { intros content w' r H.
    destruct (CODE content) as [code|] eqn:Hc.
    - destruct (FLAGS content) as [flags|] eqn:Hf.
      + destruct (writeContent_eq w content code flags Hc Hf)
          as (w1 & Hrun & _ & _ & Hn & _).
        rewrite Hrun in H. inversion H; subst. unfold odd_id. rewrite Hn.
        apply odd_id_step, Hodd.
      + unfold writeContent, Content_code, Content_flags in H.
        rewrite Hc, Hf in H. inversion H; subst. exact Hodd.
    - unfold writeContent, Content_code in H. rewrite Hc in H.
      inversion H; subst. exact Hodd. }
  split.
  { intros w' r H. unfold odd_id.
    rewrite (keeps_nextId_start tread twrite _ _ _ H). exact Hodd. }
  intros reqs w' ids H.
  destruct (writeHeaders_eq twrite reqs w) as (w1 & Hrun & Hn & _).
  rewrite Hrun in H. inversion H; subst. split.
  - apply ids_from_odd, Hodd.
  - unfold odd_id. rewrite Hn. clear - Hodd.
    induction (List.length reqs) as [|n IH].
    + rewrite Z.add_0_r. exact Hodd.
    + replace (nextId (self w) + 2 * Z.of_nat (S n))
        with (nextId (self w) + 2 * Z.of_nat n + 2) by lia.
      apply odd_id_step, IH.
Qed.

(** *** The exceptions of [start] *)

(** [readIdSzRes] raises a [ProtocolError] with one of its three
    messages, or lets an exception of the codec through; the indexing of
    the header never fails. *)
Lemma readIdSzRes_raises (w w' : World T) (e : exn) :
  readIdSzRes tread w = (w', Raise e) ->
  (exists size ident flags,
     e = ProtocolError (idsz_complaint size ident flags)) \/
  e = CodecError "unpack".
Proof.
  intros Hrun.
  destruct (readHeader tread w) as [w1 [head|e1]] eqn:Hh.
  - destruct (readHeader_Ok _ _ _ _ Hh)
      as (data & c & raw & ident & flags & code & _ & _ & _ & ->).
    rewrite (readIdSzRes_eq _ _ _ _ _ _ _ Hh) in Hrun.
    destruct (negb (raw - 11 =? 20)) eqn:E1.
    { inversion Hrun. left. exists (raw - 11), ident, flags.
      unfold idsz_complaint. rewrite E1. reflexivity. }
    destruct (negb (flags =? 128)) eqn:E2.
    { inversion Hrun. left. exists (raw - 11), ident, flags.
      unfold idsz_complaint. rewrite E1, E2. reflexivity. }
    destruct (negb (ident =? 1)) eqn:E3.
    { inversion Hrun. left. exists (raw - 11), ident, flags.
      unfold idsz_complaint. rewrite E1, E2. reflexivity. }
    destruct (tread (chan w1) 20) as [body c2].
    destruct (JdwpBuffer.unpack_fields _ body); inversion Hrun.
    right. reflexivity.
  - unfold readIdSzRes, bind in Hrun. rewrite Hh in Hrun.
    inversion Hrun; subst. rewrite readHeader_eq in Hh.
    destruct (tread (chan w) 11) as [data c].
    destruct (JdwpBuffer.unpack_fields _ data) as [vs|] eqn:Hu.
    + destruct (unpack_header_shape _ _ Hu) as (a & b & c0 & d & ->).
      cbv zeta in Hh. discriminate.
    + cbv zeta in Hh. inversion Hh. right. reflexivity.
Qed.

(** X13: [start] sets [initialized] before it calls [Thread.start], so
    when [Thread.start] raises, the negotiation has been completed and the
    object is marked initialized all the same: the next [start] returns
    [None] at once and makes no second attempt to start the thread. *)
Theorem start_thread_failure
    (w w' : World T) (msg : string)
    (Hrun : start tread twrite w = (w', Raise (RuntimeError msg))) :
  initialized (self w') = true /\
  started (self w') = started (self w) /\
  (exists widths,
     JdwpBuffer.sizes (xmitbuf (self w')) = Some widths /\
     JdwpBuffer.sizes (recvbuf (self w')) = Some widths) /\
  start tread twrite w' = (w', Ok tt).
Proof.
  destruct (initialized (self w)) eqn:Hinit.
  { rewrite (start_initialized _ _ _ Hinit) in Hrun. discriminate. }
  rewrite (start_eq _ Hinit) in Hrun.
  destruct (tread (twrite (chan w) HANDSHAKE_MSG) 14) as [data c].
  cbv zeta in Hrun.
  destruct (bytes_eqb data HANDSHAKE_MSG); [|discriminate].
  match type of Hrun with
  | context [readIdSzRes tread ?w3] =>
      destruct (readIdSzRes tread w3) as [w4 [[]|e']] eqn:Hres
  end.
  - apply readIdSzRes_outcome in Hres.
    destruct Hres as [_ (widths & Hself)]. cbn [self] in Hself.
    destruct (started (self w4)) eqn:Hst; [|discriminate].
    inversion Hrun; subst w'. cbn [self].
    assert (Hi : initialized (set_initialized true (self w4)) = true)
      by reflexivity.
    split; [exact Hi|].
    split; [rewrite Hself; reflexivity|].
    split; [exists widths; rewrite Hself; split; reflexivity|].
    apply start_initialized. exact Hi.
  - inversion Hrun; subst.
    destruct (readIdSzRes_raises _ _ _ Hres) as [(a & b & c0 & H)|H];
      discriminate.
Qed.

End ProcessorBehaviour.

(** ** The further properties on the byte-stream transport *)

Lemma readHeader_footprint_witness :
  self (fst (readHeader Stream.read (Stream.world Process_init reply_to_9)))
  = Process_init /\
  wire (trace (fst (readHeader Stream.read
                      (Stream.world Process_init reply_to_9)))) = [].
Proof.
  destruct (readHeader_footprint Stream.read
              (Stream.world Process_init reply_to_9) _ _ eq_refl)
    as (Hs & Hw & _).
  split; [exact Hs | exact Hw].
Defined.

Lemma readIdSzRes_rejection_witness :
  snd (readIdSzRes Stream.read (Stream.world Process_init idsz_reply_flags_00))
  = Raise (ProtocolError "expected first server message to be a response").
Proof.
  assert (Hbad : 20 <> 20 \/ 0x00 <> 0x80 \/ 1 <> 1)
    by (right; left; discriminate).
  destruct (readIdSzRes_rejection Stream.read
              (Stream.world Process_init idsz_reply_flags_00) _ 20 1 0x00 0
              eq_refl Hbad)
    as (Hrun & _).
  rewrite Hrun. reflexivity.
Defined.

Lemma writeContent_undefined_attribute_witness :
  writeContent Stream.write Request (Stream.world Process_init [])
  = (Stream.world Process_init [], Raise (AttributeError "CODE")).
Proof.
  exact (writeContent_undefined_attribute Stream.write
           (Stream.world Process_init []) Request (or_introl eq_refl)).
Defined.

Lemma start_writes_witness :
  wire (trace (fst (start Stream.read Stream.write
                      (Stream.world Process_init bad_handshake))))
  = HANDSHAKE_MSG.
Proof.
  exact (start_writes Stream.read Stream.write
           (Stream.world Process_init bad_handshake) _ _ eq_refl eq_refl).
Defined.

Lemma start_failure_restores_witness :
  snd (start Stream.read Stream.write
         (Stream.world Process_init (HANDSHAKE_MSG ++ idsz_reply_flags_00)))
  = Raise (ProtocolError "expected first server message to be a response") /\
  self (fst (start Stream.read Stream.write
               (Stream.world Process_init
                  (HANDSHAKE_MSG ++ idsz_reply_flags_00))))
  = Process_init.
Proof.
  split; [reflexivity|].
  exact (start_failure_restores Stream.read Stream.write
           (Stream.world Process_init (HANDSHAKE_MSG ++ idsz_reply_flags_00))
           _ _ eq_refl eq_refl eq_refl).
Defined.

Lemma start_success_witness :
  start Stream.read Stream.write (Stream.world Process_init good_peer)
  = ({| self :=
          {| xmitbuf := {| JdwpBuffer.sizes := Some [4; 8; 8; 8; 4];
                           JdwpBuffer.buf := [] |};
             recvbuf := {| JdwpBuffer.sizes := Some [4; 8; 8; 8; 4];
                           JdwpBuffer.buf := [] |};
             initialized := true;
             nextId := 3;
             started := true |};
        chan := [];
        trace := [Write HANDSHAKE_MSG; Read 14 HANDSHAKE_MSG;
                  Write IDSZ_REQ; Read 11 (firstn 11 idsz_reply);
                  Read 20 (skipn 11 idsz_reply)] |},
     Ok tt).
Proof.
  assert (Hlen : (20 <= List.length (skipn 11 idsz_reply))%nat)
    by (cbn; lia).
  exact (start_success Stream.read Stream.write
           (Stream.world Process_init good_peer)
           idsz_reply (skipn 11 idsz_reply) []
           (firstn 11 idsz_reply) (skipn 11 idsz_reply) 0
           eq_refl eq_refl eq_refl eq_refl eq_refl eq_refl Hlen).
Defined.

Lemma start_keeps_nextId_witness :
  nextId (self (fst (start Stream.read Stream.write
                       (Stream.world Process_init good_peer)))) = 3 /\
  snd (writeHeader Stream.write 0 0x00 0x0101
         (fst (start Stream.read Stream.write
                 (Stream.world Process_init good_peer))))
  = Ok 3.
Proof.
  destruct (start_keeps_nextId Stream.read Stream.write
              (Stream.world Process_init good_peer) _ _ eq_refl)
    as (Hn & Hid).
  split; [exact Hn | exact (Hid 0 0x00 0x0101)].
Defined.

Lemma packet_roundtrip_witness :
  exists r1 r2,
    readHeader Stream.read
      (Stream.world Process_init
         ([ x00; x00; x00; x0d;  x00; x00; x00; x03;  x00;  x01; x01
          ; x2a; x2b ] ++ [x07]))
    = (r1, Ok [2; 3; 0x00; 0x0101]) /\
    readContent Stream.read 2 r1 = (r2, Ok [x2a; x2b]) /\
    chan r2 = [x07].
Proof.
  assert (Hv : valid_header
                 (len (body_of sample_request
                         (self (Stream.world Process_init []))))
                 (nextId (self (Stream.world Process_init []))) 0x00 0x0101)
    by (unfold valid_header; cbn; lia).
  destruct (packet_roundtrip Stream.write (Stream.world Process_init [])
              sample_request 0x0101 0x00 eq_refl eq_refl Hv
              Process_init [x07])
    as (w' & sent & Hrun & Hwire & _ & r1 & r2 & Hh & Hc & Hrest & _).
  inversion Hrun; subst w'. cbn in Hwire. subst sent.
  exists r1, r2. repeat split; assumption.
Defined.

Lemma writeContent_inherited_packTo_witness :
  exists w',
    writeContent Stream.write Success (Stream.world Process_init [])
    = (w', Ok tt) /\
    wire (trace w')
    = [ x00; x00; x00; x0b;  x00; x00; x00; x03;  x80;  x00; x00 ].
Proof.
  destruct (writeContent_inherited_packTo Stream.write
              (Stream.world Process_init []) Success 0x0000 0x80
              eq_refl eq_refl eq_refl)
    as (w' & Hrun & Hwire & _).
  exists w'. split; [exact Hrun | exact Hwire].
Defined.

Lemma odd_id_invariant_witness :
  odd_id Process_init /\
  Forall (fun i => Z.odd i = true /\ 3 <= i) [3; 5].
Proof.
  assert (Hodd : odd_id (self (Stream.world Process_init [])))
    by (split; [reflexivity | cbn; lia]).
  destruct (odd_id_invariant Stream.read Stream.write
              (Stream.world Process_init []) Hodd)
    as (H0 & _ & _ & _ & Hids).
  split; [exact H0|].
  exact (proj1 (Hids [(0, 0x00, 0x0101); (4, 0x00, 0x0102)] _ _ eq_refl)).
Defined.

Lemma start_thread_failure_witness :
  snd (start Stream.read Stream.write
         (Stream.world (set_started true Process_init) good_peer))
  = Raise (RuntimeError "threads can only be started once") /\
  initialized
    (self (fst (start Stream.read Stream.write
                  (Stream.world (set_started true Process_init) good_peer))))
  = true.
Proof.
  split; [reflexivity|].
  exact (proj1 (start_thread_failure Stream.read Stream.write
                  (Stream.world (set_started true Process_init) good_peer)
                  _ _ eq_refl)).
Defined.
